(** * Prompt manager: section selection and prompt assembly

    A shallow embedding of [agent/prompt_manager.py] (class [PromptManager])
    together with the part of [agent/system_prompt.py] it imports from.

    Conventions of the embedding.
    - A Python [str] is a [string]; a character stands for the code point
      of the same number, so the texts covered are those whose code points
      are below 256.  [len] is [String.length].
    - A Python [dict] with [str] keys is a [gmap string _]; an
      [Optional[...]] argument is an [option].
    - The effects of the module are the records handed to [logger] and the
      mutation of the external LLM client.  Both live in a [world]; a
      computation is a function from the world to an outcome (an exception or
      a value) and the world it leaves behind. *)

From Stdlib Require Import Ascii.
From stdpp Require Import base option list strings pretty gmap.

(** ** Python strings *)

Module Str.

(** The newline character and the separator of [get_system_prompt]. *)
Definition nl : string := String (ascii_of_nat 10) EmptyString.

(** [bool(s)] for a [str]: a string is true when it is not empty. *)
Definition truthy (s : string) : bool :=
  match s with
  | EmptyString => false
  | String _ _ => true
  end.

(** [c.isspace()] on code points below 256: TAB, LF, VT, FF, CR, the four
    separators FS, GS, RS, US, the space, NEL and the no-break space. *)
Definition isspace (c : ascii) : bool :=
  let n := nat_of_ascii c in
  ((9 <=? n) && (n <=? 13)) || ((28 <=? n) && (n <=? 31))
  || (n =? 32) || (n =? 133) || (n =? 160).

(** [s.lstrip()] *)
Fixpoint lstrip (s : string) : string :=
  match s with
  | EmptyString => EmptyString
  | String c s' => if isspace c then lstrip s' else s
  end.

(** [s.rstrip()] *)
Fixpoint rstrip (s : string) : string :=
  match s with
  | EmptyString => EmptyString
  | String c s' =>
      match rstrip s' with
      | EmptyString => if isspace c then EmptyString else String c EmptyString
      | String d r => String c (String d r)
      end
  end.

(** [s.strip()] *)
Definition strip (s : string) : string := rstrip (lstrip s).

(** Every character of [s] is white space (true of the empty string). *)
Fixpoint blank (s : string) : bool :=
  match s with
  | EmptyString => true
  | String c s' => isspace c && blank s'
  end.

(** [sep.join(parts)] *)
Fixpoint join (sep : string) (parts : list string) : string :=
  match parts with
  | [] => EmptyString
  | [p] => p
  | p :: ps => p +:+ sep +:+ join sep ps
  end.

(** One hexadecimal digit, in lower case. *)
Definition hexdigit (n : nat) : ascii :=
  ascii_of_nat (if n <? 10 then 48 + n else 87 + n).

(** The characters [repr] writes for one character inside the quotes
    [quote]: the quote and the backslash behind a backslash, TAB, LF and CR
    by their letters, the other characters that are not printable (below 32,
    from 127 to 160, and 173) as [\xNN], every other character as it is. *)
Definition repr_char (quote c : ascii) : string :=
  let n := nat_of_ascii c in
  let backslash := ascii_of_nat 92 in
  if Ascii.eqb c quote || (n =? 92) then String backslash (String c EmptyString)
  else if n =? 9 then String backslash "t"
  else if n =? 10 then String backslash "n"
  else if n =? 13 then String backslash "r"
  else if (n <? 32) || ((127 <=? n) && (n <=? 160)) || (n =? 173) then
    String backslash
      (String "x" (String (hexdigit (n / 16))
                     (String (hexdigit (n mod 16)) EmptyString)))
  else String c EmptyString.

(** [c in s] for a character. *)
Fixpoint contains (c : ascii) (s : string) : bool :=
  match s with
  | EmptyString => false
  | String d s' => Ascii.eqb c d || contains c s'
  end.

Fixpoint repr_body (quote : ascii) (s : string) : string :=
  match s with
  | EmptyString => String quote EmptyString
  | String c s' => repr_char quote c +:+ repr_body quote s'
  end.

(** [repr(s)]: in single quotes, or in double quotes when [s] has a single
    quote and no double quote. *)
Definition repr (s : string) : string :=
  let single := ascii_of_nat 39 in
  let double := ascii_of_nat 34 in
  let quote :=
    if contains single s && negb (contains double s) then double else single in
  String quote (repr_body quote s).

(** [str(n)] for a non-negative [int]. *)
Definition of_nat (n : nat) : string := pretty n.

End Str.

(** ** Exceptions, log records and the world *)

(** The exceptions the module meets.  [ImportError] and [KeyError] are
    raised by the import statement and by [d[k]].  [Raised cls derived msg] is
    an exception the external client raises: its class is named [cls],
    [derived] tells whether that class derives from Python's [Exception], and
    [str(e) = msg].  [KeyboardInterrupt], [SystemExit], [GeneratorExit] and
    [asyncio.CancelledError] do not derive from [Exception]. *)
Inductive exn : Type :=
  | ImportError (name : string)
  | KeyError (key : string)
  | Raised (cls : string) (derived : bool) (msg : string).

(** [isinstance(e, Exception)] *)
Definition is_Exception (e : exn) : bool :=
  match e with
  | ImportError _ | KeyError _ => true
  | Raised _ derived _ => derived
  end.

(** [str(e)].  The message of the [ImportError] of a [from system_prompt
    import name] ends with the place of the module in brackets; [location] is
    that text, the path of the file the module was loaded from (or [unknown
    location] for a module without one).  The message of a [KeyError] is the
    [repr] of its key. *)
Definition exn_str (location : string) (e : exn) : string :=
  match e with
  | ImportError name =>
      "cannot import name " +:+ Str.repr name +:+ " from "
      +:+ Str.repr "system_prompt" +:+ " (" +:+ location +:+ ")"
  | KeyError key => Str.repr key
  | Raised _ _ msg => msg
  end.

Inductive level : Type := DEBUG | INFO | WARNING | ERROR.

(** One call of a [logger] method: the level, the formatted message and the
    exception attached by [exc_info=True]. *)
Record log_record : Type := LogRecord {
  log_level : level;
  log_msg : string;
  log_exc : option exn
}.

(** The mutable surroundings: the external client object and the records
    emitted so far, oldest first. *)
Record world (C : Type) : Type := World {
  w_client : C;
  w_log : list log_record
}.
Arguments World {C} _ _.
Arguments w_client {C} _.
Arguments w_log {C} _.

(** A Python computation. *)
Definition Py (C A : Type) : Type := world C → (exn + A) * world C.

Section Monad.
Context {C : Type}.

Definition ret {A} (a : A) : Py C A := λ w, (inr a, w).

Definition bind {A B} (m : Py C A) (k : A → Py C B) : Py C B :=
  λ w, match m w with
       | (inl e, w') => (inl e, w')
       | (inr a, w') => k a w'
       end.

(** [raise e] *)
Definition raise {A} (e : exn) : Py C A := λ w, (inl e, w).

(** [try: body / except Exception as e: handler e].  The handler runs for
    an instance of [Exception] and starts from the world the body left when
    it raised: nothing is rolled back.  Any other exception goes on to the
    caller. *)
Definition try_except {A} (body : Py C A) (handler : exn → Py C A) : Py C A :=
  λ w, match body w with
       | (inl e, w') => if is_Exception e then handler e w' else (inl e, w')
       | (inr a, w') => (inr a, w')
       end.

(** [logger.<level>(msg)] *)
Definition logger (l : level) (msg : string) (exc : option exn) : Py C unit :=
  λ w, (inr tt, World (w_client w) (w_log w ++ [LogRecord l msg exc])).

(** [for x in xs: acc = body x acc], the accumulator standing for the
    local variables the loop body updates. *)
Fixpoint for_in {A S} (xs : list A) (body : A → S → Py C S) (acc : S) : Py C S :=
  match xs with
  | [] => ret acc
  | x :: xs' => bind (body x acc) (for_in xs' body)
  end.

End Monad.

Notation "'let*' x := m 'in' k" := (bind m (λ x, k))
  (at level 10, x name, m at level 100, k at level 200).
Notation "m >> k" := (bind m (λ _, k))
  (at level 100, k at level 200, right associativity).

(** ** The catalog and its backing module *)

(** The attributes of an imported Python module, by name.  The values the
    manager imports are the section texts. *)
Abbreviation namespace := (gmap string string).

(** [agent/system_prompt.py] binds exactly one name, [SYSTEM_PROMPT], to one
    text; [text] stands for it. *)
Definition system_prompt_module (text : string) : namespace :=
  {[ "SYSTEM_PROMPT" := text ]}.

Record PromptManager : Type := Manager {
  prompt_sections : gmap string string
}.

(** The nine names of the [from system_prompt import (...)] statement, in
    the order they are listed. *)
Definition imported_names : list string :=
  [ "CORE_IDENTITY"; "LANGUAGE_RULES"; "STARTUP_INSTRUCTIONS";
    "MID_CONVERSATION_RULES"; "TOOL_USAGE_GUIDELINES"; "CLOSING_INSTRUCTIONS";
    "FAQ_AND_INFO"; "CONVERSATION_FLOW"; "TONE_AND_STYLE" ].

(** The keys of the dict literal of [_load_prompt_sections], each with the
    imported name it is bound to. *)
Definition section_sources : list (string * string) :=
  [ ("core_identity", "CORE_IDENTITY");
    ("language_rules", "LANGUAGE_RULES");
    ("startup_instructions", "STARTUP_INSTRUCTIONS");
    ("mid_conversation", "MID_CONVERSATION_RULES");
    ("tool_usage", "TOOL_USAGE_GUIDELINES");
    ("closing", "CLOSING_INSTRUCTIONS");
    ("faq_info", "FAQ_AND_INFO");
    ("conversation_flow", "CONVERSATION_FLOW");
    ("tone_style", "TONE_AND_STYLE") ].

Definition section_keys : list string := section_sources.*1.

Section Manager.
Context {C : Type}.

(** [from module import name]: the attribute, or [ImportError]. *)
Definition import_from (module : namespace) (name : string) : Py C string :=
  match module !! name with
  | Some v => ret v
  | None => raise (ImportError name)
  end.

(** [_load_prompt_sections]: the nine imports, then the dict literal
    assigned to [self.prompt_sections]. *)
Definition _load_prompt_sections (module : namespace) (self : PromptManager)
    : Py C PromptManager :=
  let* CORE_IDENTITY := import_from module "CORE_IDENTITY" in
  let* LANGUAGE_RULES := import_from module "LANGUAGE_RULES" in
  let* STARTUP_INSTRUCTIONS := import_from module "STARTUP_INSTRUCTIONS" in
  let* MID_CONVERSATION_RULES := import_from module "MID_CONVERSATION_RULES" in
  let* TOOL_USAGE_GUIDELINES := import_from module "TOOL_USAGE_GUIDELINES" in
  let* CLOSING_INSTRUCTIONS := import_from module "CLOSING_INSTRUCTIONS" in
  let* FAQ_AND_INFO := import_from module "FAQ_AND_INFO" in
  let* CONVERSATION_FLOW := import_from module "CONVERSATION_FLOW" in
  let* TONE_AND_STYLE := import_from module "TONE_AND_STYLE" in
  ret (Manager
    (<["core_identity" := CORE_IDENTITY]>
    (<["language_rules" := LANGUAGE_RULES]>
    (<["startup_instructions" := STARTUP_INSTRUCTIONS]>
    (<["mid_conversation" := MID_CONVERSATION_RULES]>
    (<["tool_usage" := TOOL_USAGE_GUIDELINES]>
    (<["closing" := CLOSING_INSTRUCTIONS]>
    (<["faq_info" := FAQ_AND_INFO]>
    (<["conversation_flow" := CONVERSATION_FLOW]>
    (<["tone_style" := TONE_AND_STYLE]> ∅)))))))))).

(** [PromptManager.__init__] *)
Definition __init__ (module : namespace) : Py C PromptManager :=
  _load_prompt_sections module (Manager ∅).

End Manager.

(** ** Conversation stages *)

Inductive ConversationStage : Type :=
  | STARTUP
  | MID_CONVERSATION
  | CLOSING
  | ACTIVE.

(** [member.value] *)
Definition value (s : ConversationStage) : string :=
  match s with
  | STARTUP => "startup"
  | MID_CONVERSATION => "mid_conversation"
  | CLOSING => "closing"
  | ACTIVE => "active"
  end.

(** ** Truth values and dict access *)

(** [bool(x)] for an [Optional[List[...]]]: [None] and the empty list are
    false. *)
Definition list_truthy {A} (o : option (list A)) : bool :=
  match o with
  | Some (_ :: _) => true
  | Some [] | None => false
  end.

(** [bool(x)] for an [Optional[Dict]]: [None] and the empty dict are false. *)
Definition dict_truthy {V} (o : option (gmap string V)) : bool :=
  match o with
  | Some d => negb (bool_decide (d = ∅))
  | None => false
  end.

(** [k in d] *)
Definition dict_contains {V} (d : gmap string V) (k : string) : bool :=
  bool_decide (is_Some (d !! k)).

(** [d.get(k, dflt)] *)
Definition dict_get {V} (d : gmap string V) (k : string) (dflt : V) : V :=
  match d !! k with
  | Some v => v
  | None => dflt
  end.

(** ** The prompt assembler *)

(** The separator of the final join: two newline characters. *)
Definition separator : string := Str.nl +:+ Str.nl.

(** Lines 92-119 of [get_system_prompt]: the two keys that are always
    there, extended by the keys of the stage. *)
Definition stage_sections (stage : string) : list string :=
  let sections_to_include := ["core_identity"; "language_rules"] in
  if String.eqb stage (value STARTUP) || String.eqb stage "startup" then
    sections_to_include ++
      ["startup_instructions"; "conversation_flow"; "tone_style"; "tool_usage"]
  else if String.eqb stage (value MID_CONVERSATION)
          || String.eqb stage "mid_conversation" then
    sections_to_include ++ ["mid_conversation"; "tone_style"; "tool_usage"]
  else if String.eqb stage (value CLOSING) || String.eqb stage "closing" then
    sections_to_include ++ ["closing"; "tone_style"]
  else if String.eqb stage (value ACTIVE) || String.eqb stage "active" then
    sections_to_include ++ ["mid_conversation"; "tone_style"; "tool_usage"]
  else
    sections_to_include.

(** Lines 92-127: the value of [sections_to_include] when the loop starts. *)
Definition sections_to_include (stage : string)
    (include_sections exclude_sections : option (list string)) : list string :=
  let sections_to_include := stage_sections stage in
  let sections_to_include :=
    if list_truthy include_sections
    then default [] include_sections
    else sections_to_include in
  if list_truthy exclude_sections
  then filter (λ s, s ∉ default [] exclude_sections) sections_to_include
  else sections_to_include.

(** [_format_datetime_context] *)
Definition _format_datetime_context (datetime_info : gmap string string) : string :=
  let get k := dict_get datetime_info k "N/A" in
  Str.nl +:+
  "## CURRENT DATE AND TIME INFORMATION" +:+ Str.nl +:+
  Str.nl +:+
  "**IMPORTANT: Use this information when answering questions about dates/times.**"
    +:+ Str.nl +:+
  Str.nl +:+
  "- **Current Date**: " +:+ get "readable_date"
    +:+ " (" +:+ get "day_of_week" +:+ ")" +:+ Str.nl +:+
  "- **Current Date (YYYY-MM-DD format)**: " +:+ get "current_date" +:+ Str.nl +:+
  "- **Current Time**: " +:+ get "current_time"
    +:+ " (" +:+ get "timezone" +:+ ")" +:+ Str.nl +:+
  "- **Tomorrow's Date**: " +:+ get "tomorrow_readable"
    +:+ " (" +:+ get "tomorrow_day" +:+ ")" +:+ Str.nl +:+
  "- **Tomorrow's Date (YYYY-MM-DD format)**: " +:+ get "tomorrow_date" +:+ Str.nl +:+
  "- Current timezone is " +:+ get "timezone" +:+ Str.nl.

Section Assembler.
Context {C : Type}.

(** [d[k]]: the value, or [KeyError]. *)
Definition dict_getitem (d : gmap string string) (k : string) : Py C string :=
  match d !! k with
  | Some v => ret v
  | None => raise (KeyError k)
  end.

(** The body of the loop of [get_system_prompt] (lines 133-138);
    [prompt_parts.append(x)] is [prompt_parts ++ [x]]. *)
Definition resolve_section (self : PromptManager) (section_name : string)
    (prompt_parts : list string) : Py C (list string) :=
  if dict_contains (prompt_sections self) section_name then
    let* section_content := dict_getitem (prompt_sections self) section_name in
    if Str.truthy (Str.strip section_content)
    then ret (prompt_parts ++ [section_content])
    else ret prompt_parts
  else
    logger WARNING ("Unknown prompt section: " +:+ section_name) None >>
    ret prompt_parts.

(** [get_system_prompt] *)
Definition get_system_prompt (self : PromptManager) (stage : string)
    (datetime_info : option (gmap string string)) (guardrails_context : string)
    (include_sections exclude_sections : option (list string)) : Py C string :=
  let sections_to_include :=
    sections_to_include stage include_sections exclude_sections in
  let* prompt_parts := for_in sections_to_include (resolve_section self) [] in
  let prompt_parts :=
    if dict_truthy datetime_info
    then prompt_parts ++ [_format_datetime_context (default ∅ datetime_info)]
    else prompt_parts in
  let prompt_parts :=
    if Str.truthy guardrails_context
    then prompt_parts ++ [guardrails_context]
    else prompt_parts in
  let system_prompt := Str.join separator prompt_parts in
  logger DEBUG
    ("Built system prompt for stage '" +:+ stage +:+ "' with "
     +:+ Str.of_nat (length sections_to_include) +:+ " sections, "
     +:+ "total length: " +:+ Str.of_nat (String.length system_prompt)
     +:+ " chars") None >>
  ret system_prompt.

(** The body of the loop of [get_compact_prompt] (lines 191-194): a key
    that is not in the catalog is passed over without a record. *)
Definition resolve_compact (self : PromptManager) (section_name : string)
    (prompt_parts : list string) : Py C (list string) :=
  if dict_contains (prompt_sections self) section_name then
    let* section_content := dict_getitem (prompt_sections self) section_name in
    if Str.truthy (Str.strip section_content)
    then ret (prompt_parts ++ [section_content])
    else ret prompt_parts
  else
    ret prompt_parts.

(** [get_compact_prompt] *)
Definition get_compact_prompt (self : PromptManager)
    (context : option (gmap string string)) : Py C string :=
  let compact_sections := ["core_identity"; "language_rules"; "mid_conversation"] in
  let* prompt_parts := for_in compact_sections (resolve_compact self) [] in
  ret (Str.join separator prompt_parts).

End Assembler.

(** ** The instruction updater *)

(** What [update_system_instruction] asks of the duck-typed [llm_service]
    object: [hasattr(obj, name)], the assignment [obj.name = v] and the call
    [obj.name(arg)].  Each may raise; the assignment and the call may change
    the object, also when they raise. *)
Class LLMService (C : Type) : Type := {
  hasattr : C → string → exn + bool;
  setattr : C → string → string → (exn + unit) * C;
  call_method : C → string → string → (exn + unit) * C
}.

Section Updater.
Context {C : Type} `{LLMService C}.

(** The place of the module [system_prompt], see [exn_str]. *)
Context (location : string).

Definition py_hasattr (name : string) : Py C bool :=
  λ w, (hasattr (w_client w) name, w).

Definition py_setattr (name v : string) : Py C unit :=
  λ w, let '(r, c') := setattr (w_client w) name v in (r, World c' (w_log w)).

Definition py_call (name arg : string) : Py C unit :=
  λ w, let '(r, c') := call_method (w_client w) name arg in
       (r, World c' (w_log w)).

(** [update_system_instruction] *)
Definition update_system_instruction (self : PromptManager) (stage : string)
    (datetime_info : option (gmap string string)) (guardrails_context : string)
    : Py C bool :=
  try_except
    (let* new_prompt :=
       get_system_prompt self stage datetime_info guardrails_context None None in
     let* has_field := py_hasattr "system_instruction" in
     if has_field then
       py_setattr "system_instruction" new_prompt >>
       logger INFO ("Updated system instruction for stage: " +:+ stage) None >>
       ret true
     else
       let* has_method := py_hasattr "update_system_instruction" in
       if has_method then
         py_call "update_system_instruction" new_prompt >>
         logger INFO
           ("Updated system instruction via method for stage: " +:+ stage) None >>
         ret true
       else
         logger WARNING
           "LLM service does not support dynamic system instruction updates"
           None >>
         ret false)
    (λ e,
       logger ERROR
         ("Error updating system instruction: " +:+ exn_str location e)
         (Some e) >>
       ret false).

End Updater.

(** ** What the assembler computes, stated on its own

    The definitions below follow the description of the assembly rather than
    the loop: they are what the code is compared with. *)

(** The text a key contributes: the catalog's text when the key is there
    and the text has a character that is not white space. *)
Definition surviving_text (self : PromptManager) (key : string) : option string :=
  match prompt_sections self !! key with
  | Some text => if Str.blank text then None else Some text
  | None => None
  end.

(** The section blocks of a key list, in the order of the list. *)
Definition section_blocks (self : PromptManager) (keys : list string) : list string :=
  omap (surviving_text self) keys.

(** The keys of a list that the catalog does not have, in order. *)
Definition unknown_keys (self : PromptManager) (keys : list string) : list string :=
  filter (λ k, prompt_sections self !! k = None) keys.

Definition unknown_warning (key : string) : log_record :=
  LogRecord WARNING ("Unknown prompt section: " +:+ key) None.

(** The date and time block: one block for a dict with at least one entry. *)
Definition datetime_blocks (datetime_info : option (gmap string string)) : list string :=
  match datetime_info with
  | Some d => if decide (d = ∅) then [] else [_format_datetime_context d]
  | None => []
  end.

(** The guardrails block: the text itself unless it is the empty string. *)
Definition guardrails_blocks (guardrails_context : string) : list string :=
  match guardrails_context with
  | EmptyString => []
  | String _ _ => [guardrails_context]
  end.

(** All blocks of a prompt, in order. *)
Definition prompt_blocks (self : PromptManager) (stage : string)
    (datetime_info : option (gmap string string)) (guardrails_context : string)
    (include_sections exclude_sections : option (list string)) : list string :=
  section_blocks self (sections_to_include stage include_sections exclude_sections)
  ++ datetime_blocks datetime_info
  ++ guardrails_blocks guardrails_context.

(** The record [get_system_prompt] ends with. *)
Definition built_record (stage : string) (keys : list string) (prompt : string)
    : log_record :=
  LogRecord DEBUG
    ("Built system prompt for stage '" +:+ stage +:+ "' with "
     +:+ Str.of_nat (length keys) +:+ " sections, "
     +:+ "total length: " +:+ Str.of_nat (String.length prompt)
     +:+ " chars") None.




(** The date and time block as section 6 of the specification prints it. *)
Definition spec_datetime_template (datetime_info : gmap string string) : string :=
  let get k := dict_get datetime_info k "N/A" in
  Str.join Str.nl
    [ "## CURRENT DATE AND TIME INFORMATION";
      "- Current Date: " +:+ get "readable_date"
        +:+ " (" +:+ get "day_of_week" +:+ ")";
      "- Current Date (YYYY-MM-DD): " +:+ get "current_date";
      "- Current Time: " +:+ get "current_time"
        +:+ " (" +:+ get "timezone" +:+ ")";
      "- Tomorrow's Date: " +:+ get "tomorrow_readable"
        +:+ " (" +:+ get "tomorrow_day" +:+ ")";
      "- Tomorrow's Date (YYYY-MM-DD): " +:+ get "tomorrow_date";
      "- Current timezone is " +:+ get "timezone" ].

(** The sum of the lengths of the blocks. *)
Definition total_length (blocks : list string) : nat :=
  foldr (λ b n, String.length b + n) 0 blocks.

(** ** Concrete managers, modules and clients *)

(** A module that binds the nine names. *)
Definition complete_module : namespace :=
  list_to_map
    [ ("CORE_IDENTITY", "You are Natalie.");
      ("LANGUAGE_RULES", "Answer in the language of the user.");
      ("STARTUP_INSTRUCTIONS", "Greet the caller.");
      ("MID_CONVERSATION_RULES", "Keep the context.");
      ("TOOL_USAGE_GUIDELINES", "Call the tools.");
      ("CLOSING_INSTRUCTIONS", "Ask for a follow-up.");
      ("FAQ_AND_INFO", "Fees and hostels.");
      ("CONVERSATION_FLOW", "Greeting, contact, counseling.");
      ("TONE_AND_STYLE", "Warm and short.") ].

(** The catalog loaded from [complete_module]. *)
Definition demo_manager : PromptManager :=
  Manager (list_to_map
    [ ("core_identity", "You are Natalie.");
      ("language_rules", "Answer in the language of the user.");
      ("startup_instructions", "Greet the caller.");
      ("mid_conversation", "Keep the context.");
      ("tool_usage", "Call the tools.");
      ("closing", "Ask for a follow-up.");
      ("faq_info", "Fees and hostels.");
      ("conversation_flow", "Greeting, contact, counseling.");
      ("tone_style", "Warm and short.") ]).

(** A catalog with a blank section and without [tone_style]. *)
Definition sparse_manager : PromptManager :=
  Manager (list_to_map
    [ ("core_identity", "You are Natalie.");
      ("language_rules", "   ");
      ("closing", "Ask for a follow-up.") ]).

(** A world without a client and without records. *)
Definition quiet : world unit := World tt [].

(** A test double for the client: its data attributes, its methods (each
    returns, or raises the given exception) and the calls it received. *)
Record mock_client : Type := Mock {
  mock_attrs : gmap string string;
  mock_methods : gmap string (option exn);
  mock_calls : list (string * string)
}.

#[export] Instance mock_service : LLMService mock_client := {|
  hasattr c name :=
    inr (bool_decide (is_Some (mock_attrs c !! name))
         || bool_decide (is_Some (mock_methods c !! name)));
  setattr c name v :=
    (inr tt, Mock (<[name := v]> (mock_attrs c)) (mock_methods c) (mock_calls c));
  call_method c name arg :=
    let c' := Mock (mock_attrs c) (mock_methods c) (mock_calls c ++ [(name, arg)]) in
    match mock_methods c !! name with
    | Some None => (inr tt, c')
    | Some (Some e) => (inl e, c')
    | None => (inl (Raised "AttributeError" true name), c)
    end
|}.

(** A client with a settable field only. *)
Definition field_client : mock_client :=
  Mock {[ "system_instruction" := "old" ]} ∅ [].

(** A client with an update operation only. *)
Definition method_client : mock_client :=
  Mock ∅ {[ "update_system_instruction" := None ]} [].

(** A client with neither. *)
Definition bare_client : mock_client := Mock ∅ ∅ [].

(** A client whose update operation raises. *)
Definition failing_client : mock_client :=
  Mock ∅
    {[ "update_system_instruction" := Some (Raised "RuntimeError" true "boom") ]}
    [].



(** A place for the module [system_prompt]. *)
Definition demo_location : string := "/srv/agent/system_prompt.py".

(** A service like [S] whose every call of an operation raises: it differs
    from [S] in [call_method] only. *)
Definition without_operations {C : Type} (S : LLMService C) : LLMService C := {|
  hasattr := @hasattr C S;
  setattr := @setattr C S;
  call_method c name arg := (inl (Raised "TypeError" true name), c)
|}.

(** ** The global instance *)

(** [get_prompt_manager].  The module variable [_prompt_manager_instance]
    is passed in and handed back: it is assigned only when the constructor
    returned, so a load that raises leaves it [None]. *)
Definition get_prompt_manager {C : Type} (module : namespace)
    (_prompt_manager_instance : option PromptManager)
    : world C → (exn + PromptManager) * option PromptManager * world C :=
  λ w,
    match _prompt_manager_instance with
    | None =>
        match __init__ module w with
        | (inr self, w') => (inr self, Some self, w')
        | (inl e, w') => (inl e, None, w')
        end
    | Some self => (inr self, Some self, w)
    end.

(** The keys [_format_datetime_context] reads. *)
Definition datetime_fields : list string :=
  [ "readable_date"; "day_of_week"; "current_date"; "current_time";
    "timezone"; "tomorrow_readable"; "tomorrow_day"; "tomorrow_date" ].

(** The fixed selection of [get_compact_prompt]. *)
Definition compact_sections : list string :=
  ["core_identity"; "language_rules"; "mid_conversation"].

(** * Properties *)

(** ** Strings *)

Lemma truthy_rstrip (s : string) : Str.truthy (Str.rstrip s) = negb (Str.blank s).
Proof.
  induction s as [|c s IH]; [done|].
  cbn [Str.rstrip Str.blank].
  destruct (Str.rstrip s) as [|d r]; cbn [Str.truthy] in *.
  - apply (f_equal negb) in IH. rewrite negb_involutive in IH. rewrite <- IH.
    by destruct (Str.isspace c).
  - apply (f_equal negb) in IH. rewrite negb_involutive in IH. rewrite <- IH.
    by rewrite andb_false_r.
Qed.

Lemma blank_lstrip (s : string) : Str.blank (Str.lstrip s) = Str.blank s.
Proof.
  induction s as [|c s IH]; [done|].
  cbn [Str.lstrip Str.blank]. destruct (Str.isspace c) eqn:Hc; [done|].
  cbn [Str.blank]. by rewrite Hc.
Qed.

(** The test [section_content.strip()] of the loops holds exactly when the
    text has a character that is not white space. *)
Lemma truthy_strip (s : string) : Str.truthy (Str.strip s) = negb (Str.blank s).
Proof. unfold Str.strip. by rewrite truthy_rstrip, blank_lstrip. Qed.

Lemma truthy_false (s : string) : Str.truthy s = false ↔ s = EmptyString.
Proof. by destruct s. Qed.

Lemma length_append (s t : string) :
  String.length (s +:+ t) = String.length s + String.length t.
Proof.
  induction s as [|c s IH]; [done|].
  change (String c s +:+ t) with (String c (s +:+ t)).
  cbn [String.length]. by rewrite IH.
Qed.

Lemma length_separator : String.length separator = 2.
Proof. reflexivity. Qed.

(** Between [n] blocks there are [n - 1] separators and nothing else. *)
Lemma length_join (sep : string) (blocks : list string) :
  String.length (Str.join sep blocks)
  = total_length blocks + String.length sep * (length blocks - 1).
Proof.
  induction blocks as [|b [|b' bs] IH].
  - cbn. lia.
  - cbn. lia.
  - change (Str.join sep (b :: b' :: bs))
      with (b +:+ sep +:+ Str.join sep (b' :: bs)).
    rewrite !length_append, IH. cbn [total_length foldr length].
    rewrite !Nat.sub_succ, !Nat.sub_0_r, (Nat.mul_succ_r _ (length bs)). lia.
Qed.

Lemma append_assoc (s t u : string) : (s +:+ t) +:+ u = s +:+ t +:+ u.
Proof.
  induction s as [|c s IH]; [done|].
  change (String c ((s +:+ t) +:+ u) = String c (s +:+ t +:+ u)).
  by rewrite IH.
Qed.

Lemma join_snoc (sep : string) (blocks : list string) (b b' : string) :
  Str.join sep ((b :: blocks) ++ [b'])
  = Str.join sep (b :: blocks) +:+ sep +:+ b'.
Proof.
  revert b. induction blocks as [|c blocks IH]; intros b; [done|].
  change (Str.join sep ((b :: c :: blocks) ++ [b']))
    with (b +:+ sep +:+ Str.join sep ((c :: blocks) ++ [b'])).
  rewrite IH.
  change (Str.join sep (b :: c :: blocks))
    with (b +:+ sep +:+ Str.join sep (c :: blocks)).
  by rewrite !append_assoc.
Qed.

(** ** The selection *)

Lemma stage_sections_prefix (stage : string) :
  ∃ keys, stage_sections stage = "core_identity" :: "language_rules" :: keys.
Proof.
  unfold stage_sections.
  repeat match goal with |- context [if ?b then _ else _] => destruct b end;
    eexists; reflexivity.
Qed.

Lemma stage_sections_other (stage : string) :
  stage ∉ ["startup"; "mid_conversation"; "closing"; "active"] →
  stage_sections stage = ["core_identity"; "language_rules"].
Proof.
  intros Hs. unfold stage_sections, value.
  repeat match goal with
  | |- context [String.eqb stage ?s] =>
      destruct (String.eqb_spec stage s) as [->|_];
      [exfalso; apply Hs; set_solver|]
  end.
  reflexivity.
Qed.

Lemma filter_all {A} (P : A → Prop) `{∀ x, Decision (P x)} (l : list A) :
  (∀ x, x ∈ l → P x) → filter P l = l.
Proof.
  induction l as [|x l IH]; intros Hl; [done|].
  rewrite filter_cons, decide_True by (apply Hl; set_solver).
  f_equal. apply IH. intros y Hy. apply Hl. set_solver.
Qed.

Lemma sections_to_include_exclude (stage : string)
    (include_sections exclude_sections : option (list string)) :
  sections_to_include stage include_sections exclude_sections
  = filter (λ s, s ∉ default [] exclude_sections)
      (sections_to_include stage include_sections None).
Proof.
  unfold sections_to_include. cbn [list_truthy].
  destruct exclude_sections as [[|x l]|]; cbn [list_truthy default]; [|done|].
  - symmetry. apply filter_all. intros ? _. set_solver.
  - symmetry. apply filter_all. intros ? _. set_solver.
Qed.

(** ** Running the assembler *)

Section Runs.
Context {C : Type}.
Implicit Types (w : world C) (self : PromptManager).

Lemma bind_ret_run {A B} (m : Py C A) (k : A → Py C B) w a w' :
  m w = (inr a, w') → bind m k w = k a w'.
Proof. intros Hm. unfold bind. by rewrite Hm. Qed.

(** One turn of the loop: a key of the catalog with a text that is not
    blank adds its text, a key the catalog lacks adds a warning, and no turn
    raises. *)
Lemma resolve_section_run self key parts w :
  resolve_section self key parts w
  = (inr (parts ++ section_blocks self [key]),
     World (w_client w) (w_log w ++ (unknown_warning <$> unknown_keys self [key]))).
Proof.
  unfold resolve_section, dict_contains, dict_getitem, section_blocks,
    unknown_keys, surviving_text.
  cbn [omap list_omap]. rewrite filter_cons, filter_nil.
  destruct (prompt_sections self !! key) as [text|] eqn:Hk.
  - rewrite bool_decide_true by eauto.
    rewrite decide_False by done.
    unfold bind, ret. rewrite truthy_strip.
    destruct w as [c l]. cbn. rewrite app_nil_r.
    by destruct (Str.blank text); cbn; rewrite ?app_nil_r.
  - rewrite bool_decide_false by (by intros [? ?]).
    rewrite decide_True by done.
    by rewrite app_nil_r.
Qed.

Lemma section_blocks_cons self key keys :
  section_blocks self (key :: keys)
  = section_blocks self [key] ++ section_blocks self keys.
Proof.
  unfold section_blocks. cbn [omap list_omap].
  by destruct (surviving_text self key).
Qed.

Lemma unknown_keys_cons self key keys :
  unknown_keys self (key :: keys)
  = unknown_keys self [key] ++ unknown_keys self keys.
Proof. unfold unknown_keys. by rewrite <- filter_app. Qed.

(** The whole loop. *)
Lemma for_in_resolve_section self keys parts w :
  for_in keys (resolve_section self) parts w
  = (inr (parts ++ section_blocks self keys),
     World (w_client w) (w_log w ++ (unknown_warning <$> unknown_keys self keys))).
Proof.
  revert parts w. induction keys as [|key keys IH]; intros parts w.
  - destruct w. cbn. by rewrite !app_nil_r.
  - cbn [for_in].
    rewrite (bind_ret_run _ _ _ _ _ (resolve_section_run self key parts w)).
    rewrite IH. cbn [w_client w_log].
    rewrite (section_blocks_cons self key keys).
    rewrite (unknown_keys_cons self key keys), fmap_app.
    by rewrite !app_assoc.
Qed.

(** The loop of [get_compact_prompt]: the same blocks, no record. *)
Lemma for_in_resolve_compact self keys parts w :
  for_in keys (resolve_compact self) parts w
  = (inr (parts ++ section_blocks self keys), w).
Proof.
  revert parts. induction keys as [|key keys IH]; intros parts.
  - cbn. by rewrite app_nil_r.
  - cbn [for_in].
    assert (resolve_compact self key parts w
            = (inr (parts ++ section_blocks self [key]), w)) as Hstep.
    { unfold resolve_compact, dict_contains, dict_getitem, section_blocks,
        surviving_text.
      cbn [omap list_omap].
      destruct (prompt_sections self !! key) as [text|] eqn:Hk.
      - rewrite bool_decide_true by eauto.
        unfold bind, ret. rewrite truthy_strip.
        by destruct (Str.blank text); cbn; rewrite ?app_nil_r.
      - rewrite bool_decide_false by (by intros [? ?]).
        by rewrite app_nil_r. }
    rewrite (bind_ret_run _ _ _ _ _ Hstep), IH.
    rewrite (section_blocks_cons self key keys).
    by rewrite app_assoc.
Qed.

Lemma datetime_blocks_run (datetime_info : option (gmap string string))
    (parts : list string) :
  (if dict_truthy datetime_info
   then parts ++ [_format_datetime_context (default ∅ datetime_info)]
   else parts)
  = parts ++ datetime_blocks datetime_info.
Proof.
  destruct datetime_info as [d|]; cbn; [|by rewrite app_nil_r].
  destruct (decide (d = ∅)) as [->|Hd].
  - rewrite bool_decide_true by done. cbn. by rewrite app_nil_r.
  - by rewrite bool_decide_false by done.
Qed.

Lemma guardrails_blocks_run (guardrails_context : string) (parts : list string) :
  (if Str.truthy guardrails_context
   then parts ++ [guardrails_context]
   else parts)
  = parts ++ guardrails_blocks guardrails_context.
Proof. destruct guardrails_context; cbn; [by rewrite app_nil_r|done]. Qed.

(** [get_system_prompt] returns the join of the blocks and leaves the
    warnings of the unknown keys and the closing record behind. *)
Lemma get_system_prompt_run self stage datetime_info guardrails_context
    include_sections exclude_sections w :
  let keys := sections_to_include stage include_sections exclude_sections in
  let prompt :=
    Str.join separator
      (prompt_blocks self stage datetime_info guardrails_context
         include_sections exclude_sections) in
  get_system_prompt self stage datetime_info guardrails_context
    include_sections exclude_sections w
  = (inr prompt,
     World (w_client w)
       (w_log w ++ (unknown_warning <$> unknown_keys self keys)
              ++ [built_record stage keys prompt])).
Proof.
  intros keys prompt. unfold get_system_prompt. fold keys.
  rewrite (bind_ret_run _ _ _ _ _ (for_in_resolve_section self keys [] w)).
  rewrite datetime_blocks_run, guardrails_blocks_run, app_nil_l, <- app_assoc.
  unfold bind, logger, ret. cbn [w_client w_log].
  by rewrite <- app_assoc.
Qed.

Lemma get_compact_prompt_run self context w :
  get_compact_prompt self context w
  = (inr (Str.join separator
            (section_blocks self
               ["core_identity"; "language_rules"; "mid_conversation"])), w).
Proof.
  unfold get_compact_prompt.
  by rewrite (bind_ret_run _ _ _ _ _ (for_in_resolve_compact self _ [] w)).
Qed.

End Runs.

(** ** Catalog construction *)

Section Catalog.
Context {C : Type}.
Implicit Types (w : world C) (module : namespace).


(** The load either stops at the first of the nine names the module lacks
    or binds the nine keys to the nine imported texts; the world is as it
    was in both cases. *)
Lemma load_cases module w :
  (∃ missing, missing ∈ imported_names ∧ module !! missing = None
     ∧ __init__ (C:=C) module w = (inl (ImportError missing), w))
  ∨ (∃ self, __init__ module w = (inr self, w)
       ∧ dom (prompt_sections self) = list_to_set section_keys
       ∧ (∀ key name, (key, name) ∈ section_sources →
            is_Some (module !! name)
            ∧ prompt_sections self !! key = module !! name)).
Proof.
  unfold __init__, _load_prompt_sections, import_from, bind, ret, raise.
  repeat match goal with
  | |- context [module !! ?n] =>
      lazymatch goal with
      | H : module !! n = _ |- _ => fail
      | _ => destruct (module !! n) eqn:?;
             [|left; exists n; split; [set_solver|done]]
      end
  end.
  right. eexists. split; [reflexivity|]. cbn [prompt_sections]. split.
  - rewrite !dom_insert_L, dom_empty_L. unfold section_keys. cbn. set_solver.
  - intros key name Hkn. unfold section_sources in Hkn.
    repeat (apply elem_of_cons in Hkn as [[= -> ->]|Hkn];
            [split; [eauto|]; by simplify_map_eq|]).
    by apply elem_of_nil in Hkn.
Qed.

(** The module of [agent/system_prompt.py] binds [SYSTEM_PROMPT] only: the
    load stops at the first import. *)
Lemma shipped_module_load_fails (text : string) w :
  __init__ (C:=C) (system_prompt_module text) w
  = (inl (ImportError "CORE_IDENTITY"), w).
Proof. reflexivity. Qed.


End Catalog.



(** ** Selection by stage and by explicit list *)

Section Selection.
Context {C : Type}.
Implicit Types (w : world C) (self : PromptManager).

(** C5: without [include_sections] the key list is [core_identity],
    [language_rules] and then the keys of the stage, in the order of the
    table; a stage outside the four appends nothing, and no stage makes the
    call raise.  Excluded keys, when given, are then filtered out. *)
Theorem stage_table self datetime_info guardrails_context w :
  sections_to_include "startup" None None
    = ["core_identity"; "language_rules"; "startup_instructions";
       "conversation_flow"; "tone_style"; "tool_usage"]
  ∧ sections_to_include "mid_conversation" None None
    = ["core_identity"; "language_rules"; "mid_conversation"; "tone_style";
       "tool_usage"]
  ∧ sections_to_include "active" None None
    = ["core_identity"; "language_rules"; "mid_conversation"; "tone_style";
       "tool_usage"]
  ∧ sections_to_include "closing" None None
    = ["core_identity"; "language_rules"; "closing"; "tone_style"]
  ∧ (∀ stage, stage ∉ ["startup"; "mid_conversation"; "closing"; "active"] →
       sections_to_include stage None None = ["core_identity"; "language_rules"])
  ∧ (∀ stage, ∃ keys, sections_to_include stage None None
                       = "core_identity" :: "language_rules" :: keys)
  ∧ (∀ stage exclude_sections,
       sections_to_include stage None exclude_sections
       = filter (λ s, s ∉ default [] exclude_sections)
           (sections_to_include stage None None))
  ∧ (∀ stage exclude_sections, ∃ prompt w',
       get_system_prompt self stage datetime_info guardrails_context
         None exclude_sections w = (inr prompt, w')).
Proof.
  split_and!; try reflexivity.
  - intros stage Hs. unfold sections_to_include. cbn [list_truthy].
    by apply stage_sections_other.
  - intros stage. unfold sections_to_include. cbn [list_truthy].
    apply stage_sections_prefix.
  - intros stage exclude_sections. apply sections_to_include_exclude.
  - intros stage exclude_sections. rewrite get_system_prompt_run. eauto.
Qed.

(** C1, as amended: an explicit list with at least one key replaces the
    working list whatever the stage is, verbatim and in the order given, and
    the two keys that are otherwise always there are not put back; an
    explicit empty list is treated as no list at all, so the call selects the
    keys of the stage exactly as it does without [include_sections]. *)
Theorem include_sections_override self stage datetime_info guardrails_context
    exclude_sections w :
  (∀ key keys,
     sections_to_include stage (Some (key :: keys)) None = key :: keys
     ∧ sections_to_include stage (Some (key :: keys)) exclude_sections
       = filter (λ s, s ∉ default [] exclude_sections) (key :: keys)
     ∧ (get_system_prompt self stage datetime_info guardrails_context
          (Some (key :: keys)) None w).1
       = inr (Str.join separator
                (section_blocks self (key :: keys)
                 ++ datetime_blocks datetime_info
                 ++ guardrails_blocks guardrails_context)))
  ∧ sections_to_include stage (Some []) exclude_sections
    = sections_to_include stage None exclude_sections
  ∧ get_system_prompt self stage datetime_info guardrails_context
      (Some []) exclude_sections w
    = get_system_prompt self stage datetime_info guardrails_context
        None exclude_sections w.
Proof.
  split_and!; [|done..].
  intros key keys. split_and!.
  - reflexivity.
  - by rewrite sections_to_include_exclude.
  - by rewrite get_system_prompt_run.
Qed.

End Selection.

(** C1, as stated, fails: with [include_sections=[]] the call for the stage
    [closing] still selects the four keys of the stage and returns their
    four blocks, not the prompt without section blocks. *)
Lemma empty_include_list_keeps_stage_sections :
  sections_to_include "closing" (Some []) None
    = ["core_identity"; "language_rules"; "closing"; "tone_style"]
  ∧ (get_system_prompt demo_manager "closing" None EmptyString (Some []) None
       quiet).1
    = inr (Str.join separator
             ["You are Natalie."; "Answer in the language of the user.";
              "Ask for a follow-up."; "Warm and short."])
  ∧ (get_system_prompt demo_manager "closing" None EmptyString (Some []) None
       quiet).1
    ≠ inr (Str.join separator []).
Proof. split_and!; [reflexivity|by vm_compute|by vm_compute]. Qed.

(** The table at a stage outside the four. *)
Lemma stage_table_witness :
  ("unknown_stage" ∉ ["startup"; "mid_conversation"; "closing"; "active"])
  ∧ sections_to_include "unknown_stage" None None
    = ["core_identity"; "language_rules"].
Proof.
  assert ("unknown_stage" ∉ ["startup"; "mid_conversation"; "closing"; "active"])
    as Hs.
  { apply not_elem_of_cons; split; [discriminate|].
    apply not_elem_of_cons; split; [discriminate|].
    apply not_elem_of_cons; split; [discriminate|].
    apply not_elem_of_cons; split; [discriminate|].
    apply not_elem_of_nil. }
  split; [exact Hs|].
  destruct (stage_table demo_manager None EmptyString quiet)
    as (_ & _ & _ & _ & Hother & _).
  exact (Hother "unknown_stage" Hs).
Defined.

(** ** Computed context blocks *)

Section Context_blocks.
Context {C : Type}.
Implicit Types (w : world C) (self : PromptManager).

Lemma dict_get_insert_default {V} (d : gmap string V) (field k : string) (dflt : V) :
  d !! field = None → dict_get (<[field := dflt]> d) k dflt = dict_get d k dflt.
Proof.
  intros Hnone. unfold dict_get.
  destruct (decide (field = k)) as [->|Hne].
  - by rewrite lookup_insert_eq, Hnone.
  - by rewrite lookup_insert_ne.
Qed.

(** C3, as amended: the guardrails text is appended verbatim as the last
    block exactly when it is not the empty string; it is not trimmed first,
    so a text of white space only is appended too. *)
Theorem guardrails_block self stage datetime_info guardrails_context
    include_sections exclude_sections w :
  let before :=
    section_blocks self
      (sections_to_include stage include_sections exclude_sections)
    ++ datetime_blocks datetime_info in
  (guardrails_context ≠ EmptyString →
     (get_system_prompt self stage datetime_info guardrails_context
        include_sections exclude_sections w).1
     = inr (Str.join separator (before ++ [guardrails_context])))
  ∧ (guardrails_context = EmptyString →
     (get_system_prompt self stage datetime_info guardrails_context
        include_sections exclude_sections w).1
     = inr (Str.join separator before))
  ∧ (∀ b blocks, before = b :: blocks → guardrails_context ≠ EmptyString →
     (get_system_prompt self stage datetime_info guardrails_context
        include_sections exclude_sections w).1
     = inr (Str.join separator before +:+ separator +:+ guardrails_context)).
Proof.
  intros before. rewrite get_system_prompt_run. cbn [fst].
  unfold prompt_blocks. rewrite app_assoc. fold before.
  split_and!.
  - intros Hg. by destruct guardrails_context.
  - intros ->. cbn. by rewrite app_nil_r.
  - intros b blocks -> Hg. destruct guardrails_context as [|c g]; [done|].
    cbn [guardrails_blocks]. by rewrite join_snoc.
Qed.

(** C4, as amended: a [datetime_info] with at least one entry adds exactly
    one block after the section blocks and before the guardrails block; a
    [datetime_info] that is absent or the empty dict adds no block.  The
    block is the template of [_format_datetime_context]: an empty line, the
    heading, an empty line, the line in bold that says to use the
    information, an empty line, six lines of fields with their labels in
    bold, and a final newline.  A field that is missing is rendered as [N/A],
    that is, as if the dict had bound it to [N/A], and never makes the call
    fail. *)
Theorem datetime_block self stage (d : gmap string string) guardrails_context
    include_sections exclude_sections w :
  let sections :=
    section_blocks self
      (sections_to_include stage include_sections exclude_sections) in
  let get k := dict_get d k "N/A" in
  (d ≠ ∅ →
   (get_system_prompt self stage (Some d) guardrails_context
      include_sections exclude_sections w).1
   = inr (Str.join separator
            (sections ++ [_format_datetime_context d]
             ++ guardrails_blocks guardrails_context)))
  ∧ (get_system_prompt self stage (Some ∅) guardrails_context
       include_sections exclude_sections w).1
    = inr (Str.join separator
             (sections ++ guardrails_blocks guardrails_context))
  ∧ (get_system_prompt self stage None guardrails_context
       include_sections exclude_sections w).1
    = inr (Str.join separator
             (sections ++ guardrails_blocks guardrails_context))
  ∧ (∀ field, d !! field = None →
       _format_datetime_context d
       = _format_datetime_context (<[field := "N/A"]> d))
  ∧ _format_datetime_context d
    = Str.join Str.nl
        [ EmptyString;
          "## CURRENT DATE AND TIME INFORMATION";
          EmptyString;
          "**IMPORTANT: Use this information when answering questions about dates/times.**";
          EmptyString;
          "- **Current Date**: " +:+ get "readable_date"
            +:+ " (" +:+ get "day_of_week" +:+ ")";
          "- **Current Date (YYYY-MM-DD format)**: " +:+ get "current_date";
          "- **Current Time**: " +:+ get "current_time"
            +:+ " (" +:+ get "timezone" +:+ ")";
          "- **Tomorrow's Date**: " +:+ get "tomorrow_readable"
            +:+ " (" +:+ get "tomorrow_day" +:+ ")";
          "- **Tomorrow's Date (YYYY-MM-DD format)**: " +:+ get "tomorrow_date";
          "- Current timezone is " +:+ get "timezone";
          EmptyString ].
Proof.
  intros sections get. split_and!.
  - intros Hd. rewrite get_system_prompt_run. cbn [fst]. unfold prompt_blocks.
    cbn [datetime_blocks]. by rewrite decide_False.
  - by rewrite get_system_prompt_run.
  - by rewrite get_system_prompt_run.
  - intros field Hnone. unfold _format_datetime_context.
    by rewrite !(dict_get_insert_default d field _ "N/A" Hnone).
  - unfold _format_datetime_context. fold get. cbn [Str.join].
    by rewrite !append_assoc.
Qed.

End Context_blocks.

(** C3, as stated, fails: a guardrails text of one space is empty after
    trimming, and it is appended as a block all the same. *)
Lemma blank_guardrails_is_appended :
  Str.strip " " = EmptyString
  ∧ (get_system_prompt demo_manager "unknown_stage" None " " None None quiet).1
    = inr (Str.join separator
             ["You are Natalie."; "Answer in the language of the user."; " "])
  ∧ (get_system_prompt demo_manager "unknown_stage" None " " None None quiet).1
    ≠ inr (Str.join separator
             ["You are Natalie."; "Answer in the language of the user."]).
Proof. split_and!; [reflexivity|by vm_compute|by vm_compute]. Qed.

(** A guardrails text after the four blocks of the stage [closing]. *)
Lemma guardrails_block_witness :
  "Stay on topic." ≠ EmptyString
  ∧ (get_system_prompt demo_manager "closing" None "Stay on topic." None None
       quiet).1
    = inr (Str.join separator
             (section_blocks demo_manager
                (sections_to_include "closing" None None)
              ++ datetime_blocks None) +:+ separator +:+ "Stay on topic.").
Proof.
  split; [discriminate|].
  destruct (guardrails_block demo_manager "closing" None "Stay on topic."
              None None quiet) as (_ & _ & Hlast).
  apply (Hlast "You are Natalie."
           ["Answer in the language of the user."; "Ask for a follow-up.";
            "Warm and short."]); [reflexivity|discriminate].
Defined.

(** C4, as stated, fails twice.  A [datetime_info] that is supplied as the
    empty dict adds no block, where the claim has one block with every field
    rendered as the placeholder; and the block of a dict with an entry is
    not the template the specification prints: it has lines, bold marks and
    newlines at both ends that the printed template lacks. *)
Lemma datetime_block_not_as_stated :
  (get_system_prompt demo_manager "unknown_stage" (Some ∅) EmptyString None None
     quiet).1
  = inr (Str.join separator
           ["You are Natalie."; "Answer in the language of the user."])
  ∧ (get_system_prompt demo_manager "unknown_stage" (Some ∅) EmptyString None
       None quiet).1
    ≠ inr (Str.join separator
             ["You are Natalie."; "Answer in the language of the user.";
              _format_datetime_context ∅])
  ∧ (get_system_prompt demo_manager "unknown_stage" (Some ∅) EmptyString None
       None quiet).1
    ≠ inr (Str.join separator
             ["You are Natalie."; "Answer in the language of the user.";
              spec_datetime_template ∅])
  ∧ _format_datetime_context {[ "timezone" := "IST" ]}
    ≠ spec_datetime_template {[ "timezone" := "IST" ]}
  ∧ (get_system_prompt demo_manager "unknown_stage"
       (Some {[ "timezone" := "IST" ]}) EmptyString None None quiet).1
    ≠ inr (Str.join separator
             ["You are Natalie."; "Answer in the language of the user.";
              spec_datetime_template {[ "timezone" := "IST" ]}]).
Proof. split_and!; by vm_compute. Qed.

(** A dict with the time zone only: one block, the other fields as [N/A]. *)
Lemma datetime_block_witness :
  ({[ "timezone" := "IST" ]} : gmap string string) ≠ ∅
  ∧ (get_system_prompt demo_manager "unknown_stage"
       (Some {[ "timezone" := "IST" ]}) EmptyString None None quiet).1
    = inr (Str.join separator
             (section_blocks demo_manager
                (sections_to_include "unknown_stage" None None)
              ++ [_format_datetime_context {[ "timezone" := "IST" ]}]
              ++ guardrails_blocks EmptyString))
  ∧ _format_datetime_context {[ "timezone" := "IST" ]}
    = _format_datetime_context
        (<["current_date" := "N/A"]> {[ "timezone" := "IST" ]}).
Proof.
  assert (({[ "timezone" := "IST" ]} : gmap string string) ≠ ∅) as Hd
    by apply insert_non_empty.
  split; [exact Hd|].
  destruct (datetime_block demo_manager "unknown_stage"
              {[ "timezone" := "IST" ]} EmptyString None None quiet)
    as (Hrun & _ & _ & Hfield & _).
  split; [exact (Hrun Hd)|].
  apply Hfield. reflexivity.
Defined.

(** The block of a dict without any of the eight fields. *)
Example datetime_block_all_missing :
  _format_datetime_context {[ "unrelated" := "x" ]}
  = Str.join Str.nl
      [ EmptyString;
        "## CURRENT DATE AND TIME INFORMATION";
        EmptyString;
        "**IMPORTANT: Use this information when answering questions about dates/times.**";
        EmptyString;
        "- **Current Date**: N/A (N/A)";
        "- **Current Date (YYYY-MM-DD format)**: N/A";
        "- **Current Time**: N/A (N/A)";
        "- **Tomorrow's Date**: N/A (N/A)";
        "- **Tomorrow's Date (YYYY-MM-DD format)**: N/A";
        "- Current timezone is N/A";
        EmptyString ].
Proof. reflexivity. Qed.

(** ** Exclusion, unknown keys and blank sections *)

Section Blocks.
Context {C : Type}.
Implicit Types (w : world C) (self : PromptManager).

Lemma strip_empty_blank (s : string) :
  Str.strip s = EmptyString ↔ Str.blank s = true.
Proof.
  rewrite <- truthy_false, truthy_strip. by destruct (Str.blank s).
Qed.

Lemma section_blocks_unknown self key :
  prompt_sections self !! key = None → section_blocks self [key] = [].
Proof. intros Hk. unfold section_blocks, surviving_text. cbn. by rewrite Hk. Qed.

Lemma section_blocks_blank self key text :
  prompt_sections self !! key = Some text → Str.strip text = EmptyString →
  section_blocks self [key] = [].
Proof.
  intros Hk Hb%strip_empty_blank. unfold section_blocks, surviving_text. cbn.
  by rewrite Hk, Hb.
Qed.

(** The keys the catalog lacks can be dropped from a list without changing
    its blocks. *)
Lemma section_blocks_known self keys :
  section_blocks self keys
  = section_blocks self (filter (λ k, is_Some (prompt_sections self !! k)) keys).
Proof.
  induction keys as [|key keys IH]; [done|].
  rewrite filter_cons. destruct (decide _) as [Hk|Hk].
  - rewrite (section_blocks_cons self key keys), IH.
    by rewrite <- section_blocks_cons.
  - rewrite (section_blocks_cons self key keys), IH.
    rewrite section_blocks_unknown; [done|].
    by apply eq_None_not_Some.
Qed.

(** The section blocks are the texts of the keys that survive, key by key
    and in the same order. *)
Lemma section_blocks_aligned self keys :
  Forall2 (λ key block,
             prompt_sections self !! key = Some block
             ∧ Str.truthy (Str.strip block) = true)
    (filter (λ k, is_Some (surviving_text self k)) keys)
    (section_blocks self keys).
Proof.
  induction keys as [|key keys IH]; [constructor|].
  rewrite filter_cons, (section_blocks_cons self key keys).
  unfold section_blocks at 1. cbn [omap list_omap].
  destruct (surviving_text self key) as [text|] eqn:Hs.
  - rewrite decide_True by eauto. constructor; [|exact IH].
    unfold surviving_text in Hs.
    destruct (prompt_sections self !! key) as [t|]; [|done].
    destruct (Str.blank t) eqn:Hb; [done|]. injection Hs as ->.
    split; [done|]. by rewrite truthy_strip, Hb.
  - rewrite decide_False by (by intros [? ?]). exact IH.
Qed.

(** C6: every key of [exclude_sections] is absent from the key list the
    loop runs over, whether it came from the two fixed keys, from the stage
    or from [include_sections]; the other keys stay, in order, and the
    section blocks of the prompt are those of the keys that stay. *)
Theorem excluded_keys_removed self stage datetime_info guardrails_context
    include_sections (excluded : list string) (key : string) w :
  key ∈ excluded →
  (key ∉ sections_to_include stage include_sections (Some excluded))
  ∧ sections_to_include stage include_sections (Some excluded)
    = filter (λ s, s ∉ excluded)
        (sections_to_include stage include_sections None)
  ∧ (get_system_prompt self stage datetime_info guardrails_context
       include_sections (Some excluded) w).1
    = inr (Str.join separator
             (section_blocks self
                (filter (λ s, s ∉ excluded)
                   (sections_to_include stage include_sections None))
              ++ datetime_blocks datetime_info
              ++ guardrails_blocks guardrails_context)).
Proof.
  intros Hin.
  pose proof (sections_to_include_exclude stage include_sections (Some excluded))
    as Heq.
  cbn [default] in Heq. split_and!.
  - rewrite Heq. intros [Hnot _]%list_elem_of_filter. by apply Hnot.
  - exact Heq.
  - rewrite get_system_prompt_run. cbn [fst]. unfold prompt_blocks.
    by rewrite Heq.
Qed.

(** C7: the call never raises.  It returns the join of the blocks of the
    keys the catalog has, and for each selected key the catalog lacks it
    leaves one warning, in the order of the keys; such a key adds no block,
    and the prompt is the one the call would build without it. *)
Theorem unknown_keys_skipped self stage datetime_info guardrails_context
    include_sections exclude_sections w :
  let keys := sections_to_include stage include_sections exclude_sections in
  ∃ prompt w',
    get_system_prompt self stage datetime_info guardrails_context
      include_sections exclude_sections w = (inr prompt, w')
    ∧ prompt
      = Str.join separator
          (section_blocks self
             (filter (λ k, is_Some (prompt_sections self !! k)) keys)
           ++ datetime_blocks datetime_info
           ++ guardrails_blocks guardrails_context)
    ∧ w_client w' = w_client w
    ∧ w_log w'
      = w_log w ++ (unknown_warning <$> unknown_keys self keys)
              ++ [built_record stage keys prompt]
    ∧ (∀ key, key ∈ keys → prompt_sections self !! key = None →
         unknown_warning key ∈ w_log w' ∧ section_blocks self [key] = []).
Proof.
  intros keys. rewrite get_system_prompt_run. fold keys.
  eexists _, _. split; [reflexivity|]. cbn [w_client w_log]. split_and!.
  - unfold prompt_blocks. fold keys. by rewrite <- section_blocks_known.
  - done.
  - done.
  - intros key Hin Hnone. split; [|by apply section_blocks_unknown].
    apply elem_of_app; right. apply elem_of_app; left.
    apply list_elem_of_fmap_2. by apply list_elem_of_filter.
Qed.

(** C8: a section whose text is empty or white space only adds no block;
    the prompt is the blocks that survive, each the text of its key and in
    the order of the keys, then the computed blocks, with one separator of
    two newline characters between neighbours and nothing for a section that
    was skipped: the length of the prompt is the length of the blocks plus
    two for every block but the first. *)
Theorem surviving_blocks_joined self stage datetime_info guardrails_context
    include_sections exclude_sections w :
  let keys := sections_to_include stage include_sections exclude_sections in
  let computed :=
    datetime_blocks datetime_info ++ guardrails_blocks guardrails_context in
  let blocks := section_blocks self keys ++ computed in
  (get_system_prompt self stage datetime_info guardrails_context
     include_sections exclude_sections w).1
  = inr (Str.join separator blocks)
  ∧ separator = String (ascii_of_nat 10) (String (ascii_of_nat 10) EmptyString)
  ∧ (∀ key text, prompt_sections self !! key = Some text →
       Str.strip text = EmptyString → section_blocks self [key] = [])
  ∧ Forall2 (λ key block,
               prompt_sections self !! key = Some block
               ∧ Str.truthy (Str.strip block) = true)
      (filter (λ k, is_Some (surviving_text self k)) keys)
      (section_blocks self keys)
  ∧ filter (λ k, is_Some (surviving_text self k)) keys `sublist_of` keys
  ∧ String.length (Str.join separator blocks)
    = total_length blocks + 2 * (length blocks - 1).
Proof.
  intros keys computed blocks. split_and!.
  - by rewrite get_system_prompt_run.
  - reflexivity.
  - intros key text. apply section_blocks_blank.
  - apply section_blocks_aligned.
  - apply sublist_filter.
  - by rewrite length_join, length_separator.
Qed.

(** C9: [get_compact_prompt] does not look at [context]: whatever is
    passed, it returns the join of the blocks of [core_identity],
    [language_rules] and [mid_conversation], in that order, and emits
    nothing.  It is the prompt [get_system_prompt] builds from these three
    keys as an explicit list, at any stage. *)
Theorem compact_prompt_fixed self (context context' : option (gmap string string))
    (stage : string) w :
  get_compact_prompt self context w = get_compact_prompt self context' w
  ∧ get_compact_prompt self context w
    = (inr (Str.join separator
              (section_blocks self
                 ["core_identity"; "language_rules"; "mid_conversation"])), w)
  ∧ Forall2 (λ key block,
               prompt_sections self !! key = Some block
               ∧ Str.truthy (Str.strip block) = true)
      (filter (λ k, is_Some (surviving_text self k))
         ["core_identity"; "language_rules"; "mid_conversation"])
      (section_blocks self
         ["core_identity"; "language_rules"; "mid_conversation"])
  ∧ (get_system_prompt self stage None EmptyString
       (Some ["core_identity"; "language_rules"; "mid_conversation"]) None w).1
    = (get_compact_prompt self context w).1.
Proof.
  rewrite !get_compact_prompt_run, get_system_prompt_run.
  split_and!; [done|done|apply section_blocks_aligned|].
  cbn [fst]. unfold prompt_blocks. cbn [datetime_blocks guardrails_blocks].
  by rewrite !app_nil_r.
Qed.

End Blocks.

(** Excluding a fixed key and a key of the stage [closing]. *)
Lemma excluded_keys_removed_witness :
  "core_identity" ∈ ["core_identity"; "tone_style"]
  ∧ ("core_identity"
     ∉ sections_to_include "closing" None (Some ["core_identity"; "tone_style"]))
  ∧ sections_to_include "closing" None (Some ["core_identity"; "tone_style"])
    = ["language_rules"; "closing"].
Proof.
  assert ("core_identity" ∈ ["core_identity"; "tone_style"]) as Hin
    by apply list_elem_of_here.
  split; [exact Hin|].
  destruct (excluded_keys_removed demo_manager "closing" None EmptyString None
              ["core_identity"; "tone_style"] "core_identity" quiet Hin)
    as (Hnot & Heq & _).
  split; [exact Hnot|]. rewrite Heq. reflexivity.
Defined.

(** [tone_style] is not in [sparse_manager]: a warning and no block. *)
Lemma unknown_keys_skipped_witness :
  ∃ prompt w',
    get_system_prompt sparse_manager "closing" None EmptyString None None quiet
    = (inr prompt, w')
    ∧ unknown_warning "tone_style" ∈ w_log w'
    ∧ section_blocks sparse_manager ["tone_style"] = [].
Proof.
  destruct (unknown_keys_skipped sparse_manager "closing" None EmptyString
              None None quiet) as (prompt & w' & Hrun & _ & _ & _ & Hwarn).
  exists prompt, w'. split; [exact Hrun|].
  apply Hwarn; [|reflexivity].
  apply list_elem_of_further, list_elem_of_further, list_elem_of_further,
    list_elem_of_here.
Defined.

(** [language_rules] is blank in [sparse_manager]: no block. *)
Lemma surviving_blocks_joined_witness :
  section_blocks sparse_manager ["language_rules"] = [].
Proof.
  destruct (surviving_blocks_joined sparse_manager "closing" None EmptyString
              None None quiet) as (_ & _ & Hblank & _).
  apply (Hblank "language_rules" "   "); reflexivity.
Defined.

(** A catalog with a blank and a missing section, stage [closing]: two
    blocks, one separator, one warning. *)
Example sparse_closing_prompt :
  get_system_prompt sparse_manager "closing" None EmptyString None None quiet
  = (inr ("You are Natalie." +:+ Str.nl +:+ Str.nl +:+ "Ask for a follow-up."),
     World tt
       [ unknown_warning "tone_style";
         LogRecord DEBUG
           "Built system prompt for stage 'closing' with 4 sections, total length: 38 chars"
           None ]).
Proof. by vm_compute. Qed.

(** ** The instruction updater *)

Section Updater_properties.
Context {C : Type} `{LLMService C} (location : string).
Implicit Types (w : world C) (self : PromptManager).



End Updater_properties.


(** The four clients of the tests.  The prompt of the stage [closing] on
    [demo_manager]: *)
Example closing_prompt :
  Str.join separator (prompt_blocks demo_manager "closing" None EmptyString None None)
  = Str.join separator
      ["You are Natalie."; "Answer in the language of the user.";
       "Ask for a follow-up."; "Warm and short."].
Proof. reflexivity. Qed.

(** A settable field only: true, and the field holds the new prompt. *)
Example push_field_client :
  ∃ w', update_system_instruction demo_location demo_manager "closing" None
          EmptyString (World field_client []) = (inr true, w')
        ∧ mock_attrs (w_client w') !! "system_instruction"
          = Some (Str.join separator
                    (prompt_blocks demo_manager "closing" None EmptyString
                       None None))
        ∧ mock_calls (w_client w') = [].
Proof. eexists. split; [by vm_compute|]. split; by vm_compute. Qed.

(** An update operation only: true, and the operation received the prompt. *)
Example push_method_client :
  ∃ w', update_system_instruction demo_location demo_manager "closing" None
          EmptyString (World method_client []) = (inr true, w')
        ∧ mock_calls (w_client w')
          = [("update_system_instruction",
              Str.join separator
                (prompt_blocks demo_manager "closing" None EmptyString
                   None None))].
Proof. eexists. split; by vm_compute. Qed.

(** Neither: false, the client untouched, one warning after the closing
    record of the assembly. *)
Example push_bare_client :
  ∃ log, update_system_instruction demo_location demo_manager "closing" None
           EmptyString (World bare_client [])
         = (inr false, World bare_client log)
         ∧ log_level <$> log = [DEBUG; WARNING].
Proof. eexists. split; by vm_compute. Qed.

(** An update operation that raises: false, and the error is recorded. *)
Example push_failing_client :
  ∃ w', update_system_instruction demo_location demo_manager "closing" None
          EmptyString (World failing_client []) = (inr false, w')
        ∧ last (w_log w')
          = Some (LogRecord ERROR "Error updating system instruction: boom"
                    (Some (Raised "RuntimeError" true "boom"))).
Proof. eexists. split; by vm_compute. Qed.

(** * Further properties *)

(** ** Loading and the global instance *)

Section Loading.
Context {C : Type}.
Implicit Types (w : world C) (module : namespace).

(** X1: the load reports the first name, in the order of the import
    statement, that the module does not bind, and succeeds when there is
    none; it leaves no record either way. *)
Theorem load_reports_first_missing module w :
  match filter (λ n, module !! n = None) imported_names with
  | name :: _ => __init__ (C:=C) module w = (inl (ImportError name), w)
  | [] => ∃ self, __init__ (C:=C) module w = (inr self, w)
  end.
Proof.
  unfold __init__, _load_prompt_sections, import_from, bind, ret, raise,
    imported_names.
  repeat match goal with
  | |- context [filter _ (?n :: _)] =>
      rewrite (filter_cons _ n);
      destruct (module !! n) eqn:?;
      [rewrite decide_False by done|by rewrite decide_True by done]
  end.
  rewrite filter_nil. eauto.
Qed.

(** X2: the load reads the nine imported names and nothing else: two
    modules that agree on them load alike, whatever else they bind. *)
Theorem load_reads_imported_names_only module module' w :
  (∀ name, name ∈ imported_names → module !! name = module' !! name) →
  __init__ (C:=C) module w = __init__ module' w.
Proof.
  intros Hagree.
  unfold __init__, _load_prompt_sections, import_from.
  by rewrite !Hagree by (unfold imported_names; set_solver).
Qed.

(** X3: the global instance is created once.  After a call that returned a
    manager, the variable holds it and every later call returns the same
    manager without importing again, whatever the module has become; after a
    call that raised, the variable is still unset and the next call starts
    over. *)
Theorem get_prompt_manager_caches module module' instance w :
  match get_prompt_manager module instance w with
  | (inr self, instance', w') =>
      instance' = Some self
      ∧ get_prompt_manager module' instance' w' = (inr self, Some self, w')
  | (inl e, instance', w') =>
      instance = None ∧ instance' = None
      ∧ get_prompt_manager module' instance' w'
        = get_prompt_manager module' None w'
  end.
Proof.
  unfold get_prompt_manager at 1. destruct instance as [self|].
  - done.
  - destruct (__init__ module w) as [[e|self] w'] eqn:Hinit; [done|].
    done.
Qed.

(** X4: with [agent/system_prompt.py] as it is, which binds [SYSTEM_PROMPT]
    and none of the nine names, the first use of the global instance raises
    [ImportError] for [CORE_IDENTITY] and caches nothing, so every later use
    raises again. *)
Theorem shipped_module_has_no_manager (text : string) w :
  get_prompt_manager (system_prompt_module text) None w
  = (inl (ImportError "CORE_IDENTITY"), None, w).
Proof. reflexivity. Qed.

Lemma stage_sections_known (stage key : string) :
  key ∈ stage_sections stage → key ∈ section_keys.
Proof.
  unfold stage_sections, section_keys, section_sources.
  repeat match goal with |- context [if ?b then _ else _] => destruct b end;
    cbn; intros Hkey;
    repeat (apply elem_of_cons in Hkey as [->|Hkey];
            [repeat first [apply list_elem_of_here
                          |apply list_elem_of_further]|]);
    by apply elem_of_nil in Hkey.
Qed.

Lemma filter_none {A} (P : A → Prop) `{∀ x, Decision (P x)} (l : list A) :
  (∀ x, x ∈ l → ¬ P x) → filter P l = [].
Proof.
  induction l as [|x l IH]; intros Hl; [done|].
  rewrite filter_cons, decide_False by (apply Hl; apply list_elem_of_here).
  apply IH. intros y Hy. apply Hl. by apply list_elem_of_further.
Qed.

(** X5: a manager that was loaded knows every key a stage selects: without
    [include_sections] the assembly leaves no warning, only its closing
    record, at any stage and with any exclusions. *)
Theorem loaded_manager_never_warns module self w0 w0' stage datetime_info
    guardrails_context exclude_sections w :
  __init__ module w0 = (inr self, w0') →
  let keys := sections_to_include stage None exclude_sections in
  ∃ prompt,
    get_system_prompt self stage datetime_info guardrails_context
      None exclude_sections w
    = (inr prompt,
       World (w_client w) (w_log w ++ [built_record stage keys prompt])).
Proof.
  intros Hinit keys.
  destruct (load_cases module w0)
    as [(missing & _ & _ & Hrun)|(self' & Hrun & Hdom & _)];
    rewrite Hrun in Hinit; [discriminate|].
  injection Hinit as -> _.
  rewrite get_system_prompt_run. fold keys. eexists.
  assert (unknown_keys self keys = []) as ->; [|reflexivity].
  unfold unknown_keys. apply filter_none.
  intros key Hkey Hnone.
  assert (key ∈ dom (prompt_sections self)) as [v Hv]%elem_of_dom; [|congruence].
  rewrite Hdom. apply elem_of_list_to_set, (stage_sections_known stage).
  unfold keys in Hkey. rewrite sections_to_include_exclude in Hkey.
  apply list_elem_of_filter in Hkey as [_ Hkey]. exact Hkey.
Qed.

End Loading.

(** [complete_module] with one more name bound. *)
Lemma load_reads_imported_names_only_witness :
  __init__ (<["EXTRA" := "x"]> complete_module) quiet
  = __init__ complete_module quiet.
Proof.
  apply load_reads_imported_names_only.
  intros name Hin. apply lookup_insert_ne.
  intros <-. unfold imported_names in Hin.
  repeat (apply elem_of_cons in Hin as [Heq|Hin]; [discriminate Heq|]).
  by apply elem_of_nil in Hin.
Defined.

(** The manager loaded from [complete_module], stage [startup]. *)
Lemma loaded_manager_never_warns_witness :
  ∃ prompt,
    get_system_prompt demo_manager "startup" None EmptyString None None quiet
    = (inr prompt,
       World tt
         [built_record "startup" (sections_to_include "startup" None None)
            prompt]).
Proof.
  apply (loaded_manager_never_warns complete_module demo_manager quiet quiet).
  reflexivity.
Defined.

(** ** What a call selects *)

Section Selected.
Context {C : Type}.
Implicit Types (w : world C) (self : PromptManager).

(** X6: no stage selects [faq_info]: the section is loaded, and it reaches
    a prompt exactly when the caller lists it in [include_sections] and does
    not exclude it. *)
Theorem faq_info_only_on_request (stage : string)
    (include_sections exclude_sections : option (list string)) :
  "faq_info" ∈ sections_to_include stage include_sections exclude_sections
  ↔ (∃ keys, include_sections = Some keys ∧ "faq_info" ∈ keys)
    ∧ "faq_info" ∉ default [] exclude_sections.
Proof.
  rewrite sections_to_include_exclude, list_elem_of_filter.
  unfold sections_to_include. cbn [list_truthy].
  split.
  - intros [Hex Hin]. split; [|exact Hex].
    destruct include_sections as [[|key keys]|]; cbn [list_truthy default] in Hin.
    + exfalso. revert Hin. unfold stage_sections.
      repeat match goal with |- context [if ?b then _ else _] => destruct b end;
        cbn; intros Hin;
        repeat (apply elem_of_cons in Hin as [Heq|Hin]; [discriminate Heq|]);
        by apply elem_of_nil in Hin.
    + eauto.
    + exfalso. revert Hin. unfold stage_sections.
      repeat match goal with |- context [if ?b then _ else _] => destruct b end;
        cbn; intros Hin;
        repeat (apply elem_of_cons in Hin as [Heq|Hin]; [discriminate Heq|]);
        by apply elem_of_nil in Hin.
  - intros [(keys & -> & Hin) Hex]. split; [exact Hex|].
    destruct keys as [|key keys]; [by apply elem_of_nil in Hin|].
    exact Hin.
Qed.

(** X7: the stages with keys of their own are exactly the values of the
    members of [ConversationStage]; every other string, whatever its case or
    spacing, selects the two fixed keys only. *)
Theorem stage_specific_iff_member (stage : string) :
  stage_sections stage ≠ ["core_identity"; "language_rules"]
  ↔ ∃ member, stage = value member.
Proof.
  split.
  - intros Hne.
    destruct (decide (stage ∈ ["startup"; "mid_conversation"; "closing"; "active"]))
      as [Hin|Hnot]; [|by destruct Hne; apply stage_sections_other].
    repeat (apply elem_of_cons in Hin as [->|Hin]).
    + by exists STARTUP.
    + by exists MID_CONVERSATION.
    + by exists CLOSING.
    + by exists ACTIVE.
    + by apply elem_of_nil in Hin.
  - intros [[] ->]; discriminate.
Qed.

(** X8: the outcome depends on [exclude_sections] as a set: two lists with
    the same members give the same prompt and the same records, and the
    empty list is the same as none. *)
Theorem exclusion_is_by_membership self stage datetime_info guardrails_context
    include_sections (excluded excluded' : list string) w :
  (∀ key, key ∈ excluded ↔ key ∈ excluded') →
  get_system_prompt self stage datetime_info guardrails_context
    include_sections (Some excluded) w
  = get_system_prompt self stage datetime_info guardrails_context
      include_sections (Some excluded') w
  ∧ get_system_prompt self stage datetime_info guardrails_context
      include_sections (Some []) w
    = get_system_prompt self stage datetime_info guardrails_context
        include_sections None w.
Proof.
  intros Hsame. split; [|done].
  unfold get_system_prompt.
  rewrite (sections_to_include_exclude stage include_sections (Some excluded)).
  rewrite (sections_to_include_exclude stage include_sections (Some excluded')).
  cbn [default].
  by rewrite (list_filter_iff (λ s, s ∉ excluded) (λ s, s ∉ excluded'))
    by (intros key; by rewrite Hsame).
Qed.

(** X9: when every selected key is excluded, the prompt has no section
    block and no warning: it is the join of the computed blocks, and the
    empty string when there is none. *)
Theorem excluding_every_key self stage datetime_info guardrails_context
    include_sections (excluded : list string) w :
  (∀ key, key ∈ sections_to_include stage include_sections None →
          key ∈ excluded) →
  get_system_prompt self stage datetime_info guardrails_context
    include_sections (Some excluded) w
  = (let prompt :=
       Str.join separator
         (datetime_blocks datetime_info
          ++ guardrails_blocks guardrails_context) in
     (inr prompt,
      World (w_client w) (w_log w ++ [built_record stage [] prompt])))
  ∧ (get_system_prompt self stage None EmptyString
       include_sections (Some excluded) w).1
    = inr EmptyString.
Proof.
  intros Hall.
  assert (sections_to_include stage include_sections (Some excluded) = [])
    as Hnone.
  { rewrite sections_to_include_exclude. cbn [default].
    apply filter_none. intros key Hkey Hnot. by apply Hnot, Hall. }
  rewrite !get_system_prompt_run. unfold prompt_blocks. rewrite Hnone.
  split; reflexivity.
Qed.

End Selected.

(** [faq_info] asked for at the stage [closing]. *)
Lemma faq_info_only_on_request_witness :
  "faq_info" ∈ sections_to_include "closing" (Some ["faq_info"]) None.
Proof.
  apply faq_info_only_on_request. split.
  - exists ["faq_info"]. split; [reflexivity|apply list_elem_of_here].
  - apply not_elem_of_nil.
Defined.

(** The stage [closing] is the value of [CLOSING]. *)
Lemma stage_specific_iff_member_witness :
  stage_sections "closing" ≠ ["core_identity"; "language_rules"].
Proof. apply stage_specific_iff_member. by exists CLOSING. Defined.

(** Excluding the same two keys in two orders, one of them twice. *)
Lemma exclusion_is_by_membership_witness :
  get_system_prompt demo_manager "closing" None EmptyString None
    (Some ["closing"; "tone_style"]) quiet
  = get_system_prompt demo_manager "closing" None EmptyString None
      (Some ["tone_style"; "closing"; "tone_style"]) quiet.
Proof.
  apply exclusion_is_by_membership.
  intros key. rewrite !elem_of_cons, !elem_of_nil. tauto.
Defined.

(** Excluding the four keys of the stage [closing]. *)
Lemma excluding_every_key_witness :
  (get_system_prompt demo_manager "closing" None EmptyString None
     (Some ["core_identity"; "language_rules"; "closing"; "tone_style"])
     quiet).1
  = inr EmptyString.
Proof.
  refine (proj2 (excluding_every_key demo_manager "closing" None EmptyString
                   None _ quiet _)).
  intros key Hkey. exact Hkey.
Defined.

(** ** The shape of a prompt *)

Section Shape.
Context {C : Type}.
Implicit Types (w : world C) (self : PromptManager).

Lemma append_nil_r (s : string) : s +:+ EmptyString = s.
Proof.
  induction s as [|c s IH]; [done|].
  change (String c (s +:+ EmptyString) = String c s). by rewrite IH.
Qed.

Lemma join_cons (sep b : string) (blocks : list string) :
  Str.join sep (b :: blocks)
  = b +:+ match blocks with
          | [] => EmptyString
          | _ :: _ => sep +:+ Str.join sep blocks
          end.
Proof. destruct blocks; [by rewrite append_nil_r|done]. Qed.

Lemma join_app (sep : string) (blocks blocks' : list string) :
  blocks ≠ [] → blocks' ≠ [] →
  Str.join sep (blocks ++ blocks')
  = Str.join sep blocks +:+ sep +:+ Str.join sep blocks'.
Proof.
  intros Hb Hb'. induction blocks as [|b [|b2 blocks] IH]; [done| |].
  - destruct blocks' as [|b' blocks']; done.
  - change (Str.join sep ((b :: b2 :: blocks) ++ blocks'))
      with (b +:+ sep +:+ Str.join sep ((b2 :: blocks) ++ blocks')).
    rewrite IH by done.
    change (Str.join sep (b :: b2 :: blocks))
      with (b +:+ sep +:+ Str.join sep (b2 :: blocks)).
    by rewrite !append_assoc.
Qed.

Lemma join_empty (sep : string) (blocks : list string) :
  (∀ b, b ∈ blocks → b ≠ EmptyString) →
  Str.join sep blocks = EmptyString → blocks = [].
Proof.
  intros Hne Hjoin. destruct blocks as [|b blocks]; [done|].
  rewrite join_cons in Hjoin.
  destruct b as [|c b]; [by destruct (Hne EmptyString (list_elem_of_here _ _))|].
  discriminate Hjoin.
Qed.

Lemma section_blocks_not_blank self keys block :
  block ∈ section_blocks self keys → Str.blank block = false.
Proof.
  intros (key & _ & Hs)%list_elem_of_omap. unfold surviving_text in Hs.
  destruct (prompt_sections self !! key) as [text|]; [|done].
  destruct (Str.blank text) eqn:Hb; [done|]. by injection Hs as <-.
Qed.

Lemma section_blocks_replicate self key text (n : nat) :
  prompt_sections self !! key = Some text → Str.blank text = false →
  section_blocks self (replicate n key) = replicate n text.
Proof.
  intros Hk Hb. induction n as [|n IH]; [done|].
  cbn [replicate]. rewrite (section_blocks_cons self key), IH.
  unfold section_blocks, surviving_text. cbn. by rewrite Hk, Hb.
Qed.

(** X10: no block of a prompt is the empty string, so the prompt is empty
    exactly when the call has no block at all: no section survived and no
    computed block was added. *)
Theorem prompt_empty_iff_no_blocks self stage datetime_info guardrails_context
    include_sections exclude_sections w :
  let blocks :=
    prompt_blocks self stage datetime_info guardrails_context
      include_sections exclude_sections in
  (∀ block, block ∈ blocks → block ≠ EmptyString)
  ∧ ((get_system_prompt self stage datetime_info guardrails_context
        include_sections exclude_sections w).1 = inr EmptyString
     ↔ blocks = []).
Proof.
  intros blocks.
  assert (∀ block, block ∈ blocks → block ≠ EmptyString) as Hne.
  { intros block. unfold blocks, prompt_blocks.
    rewrite !elem_of_app. intros [Hs|[Hd|Hg]].
    - apply section_blocks_not_blank in Hs. by intros ->.
    - destruct datetime_info as [d|]; cbn in Hd; [|by apply elem_of_nil in Hd].
      destruct (decide (d = ∅)); [by apply elem_of_nil in Hd|].
      apply list_elem_of_singleton in Hd as ->. discriminate.
    - destruct guardrails_context as [|c g]; cbn in Hg;
        [by apply elem_of_nil in Hg|].
      apply list_elem_of_singleton in Hg as ->. discriminate. }
  split; [exact Hne|].
  rewrite get_system_prompt_run. cbn [fst]. fold blocks. split.
  - intros [= Hjoin]. by apply (join_empty separator).
  - by intros ->.
Qed.

(** X11: without an explicit list, the prompt begins with the text of
    [core_identity] whenever the catalog has it with a text that is not
    blank and the caller does not exclude it, at every stage. *)
Theorem prompt_begins_with_core_identity self stage datetime_info
    guardrails_context include_sections exclude_sections text w :
  list_truthy include_sections = false →
  prompt_sections self !! "core_identity" = Some text →
  Str.blank text = false →
  "core_identity" ∉ default [] exclude_sections →
  ∃ rest,
    (get_system_prompt self stage datetime_info guardrails_context
       include_sections exclude_sections w).1
    = inr (text +:+ rest).
Proof.
  intros Hinc Hk Hb Hex.
  rewrite get_system_prompt_run. cbn [fst]. unfold prompt_blocks.
  rewrite sections_to_include_exclude.
  unfold sections_to_include at 1. rewrite Hinc. cbn [list_truthy].
  destruct (stage_sections_prefix stage) as [keys ->].
  rewrite filter_cons, decide_True by exact Hex.
  rewrite (section_blocks_cons self "core_identity").
  unfold section_blocks at 1, surviving_text. cbn [omap list_omap].
  rewrite Hk, Hb. cbn [app]. rewrite join_cons. eauto.
Qed.

(** X12: an explicit list is not deduplicated: a key listed [n] times, with
    a text that is not blank, gives its text [n] times. *)
Theorem repeated_key_repeats_block self stage key text (n : nat) w :
  prompt_sections self !! key = Some text →
  Str.blank text = false →
  (get_system_prompt self stage None EmptyString
     (Some (replicate (S n) key)) None w).1
  = inr (Str.join separator (replicate (S n) text)).
Proof.
  intros Hk Hb. rewrite get_system_prompt_run. cbn [fst].
  unfold prompt_blocks, sections_to_include.
  cbn [replicate list_truthy default datetime_blocks guardrails_blocks].
  rewrite !app_nil_r.
  change (id (key :: replicate n key)) with (replicate (S n) key).
  by rewrite (section_blocks_replicate self key text (S n) Hk Hb).
Qed.

(** X13: the compact prompt is the prompt of the stages [mid_conversation]
    and [active] with [tone_style] and [tool_usage] excluded and without
    computed blocks. *)
Theorem compact_is_mid_conversation_reduced self context stage w :
  stage = "mid_conversation" ∨ stage = "active" →
  (get_system_prompt self stage None EmptyString None
     (Some ["tone_style"; "tool_usage"]) w).1
  = (get_compact_prompt self context w).1.
Proof.
  intros Hstage. rewrite get_system_prompt_run, get_compact_prompt_run.
  cbn [fst]. unfold prompt_blocks.
  replace (sections_to_include stage None (Some ["tone_style"; "tool_usage"]))
    with ["core_identity"; "language_rules"; "mid_conversation"]
    by (by destruct Hstage as [-> | ->]; vm_compute).
  cbn [datetime_blocks guardrails_blocks]. by rewrite !app_nil_r.
Qed.

(** X14: the prompt of the stages [mid_conversation] and [active] extends
    the compact prompt.  With blocks on both sides it is the compact prompt, a
    separator, and the join of the blocks of [tone_style] and [tool_usage]
    and of the computed blocks; without such further blocks it is the compact
    prompt itself; and when no compact section survives it is the join of the
    further blocks, with no separator in front. *)
Theorem mid_conversation_extends_compact self context stage datetime_info
    guardrails_context w :
  stage = "mid_conversation" ∨ stage = "active" →
  let more :=
    section_blocks self ["tone_style"; "tool_usage"]
    ++ datetime_blocks datetime_info
    ++ guardrails_blocks guardrails_context in
  ∃ compact,
    (get_compact_prompt self context w).1 = inr compact
    ∧ (more = [] →
       (get_system_prompt self stage datetime_info guardrails_context
          None None w).1 = inr compact)
    ∧ (section_blocks self compact_sections = [] →
       (get_system_prompt self stage datetime_info guardrails_context
          None None w).1 = inr (Str.join separator more))
    ∧ (section_blocks self compact_sections ≠ [] → more ≠ [] →
       (get_system_prompt self stage datetime_info guardrails_context
          None None w).1
       = inr (compact +:+ separator +:+ Str.join separator more)).
Proof.
  intros Hstage more. rewrite get_compact_prompt_run. eexists.
  split; [reflexivity|].
  assert (prompt_blocks self stage datetime_info guardrails_context None None
          = section_blocks self compact_sections ++ more) as Hblocks.
  { unfold prompt_blocks, more.
    replace (sections_to_include stage None None)
      with (compact_sections ++ ["tone_style"; "tool_usage"])
      by (by destruct Hstage as [-> | ->]).
    unfold section_blocks. by rewrite omap_app, <- app_assoc. }
  rewrite get_system_prompt_run. cbn [fst]. rewrite Hblocks. split_and!.
  - intros ->. by rewrite app_nil_r.
  - by intros ->.
  - intros Hc Hm. by rewrite join_app.
Qed.

(** X15: the date and time block reads the eight fields of the template
    and nothing else: two dicts that agree on them give the same block. *)
Theorem datetime_block_reads_fields_only (d d' : gmap string string) :
  (∀ field, field ∈ datetime_fields → d !! field = d' !! field) →
  _format_datetime_context d = _format_datetime_context d'.
Proof.
  intros Hagree. unfold _format_datetime_context, dict_get.
  by rewrite !Hagree
    by (unfold datetime_fields;
        repeat first [apply list_elem_of_here|apply list_elem_of_further]).
Qed.

End Shape.

(** The stage [closing] on [demo_manager]. *)
Lemma prompt_begins_with_core_identity_witness :
  ∃ rest,
    (get_system_prompt demo_manager "closing" None EmptyString None None quiet).1
    = inr ("You are Natalie." +:+ rest).
Proof.
  apply prompt_begins_with_core_identity;
    [reflexivity|reflexivity|reflexivity|apply not_elem_of_nil].
Defined.

(** [closing] listed twice. *)
Lemma repeated_key_repeats_block_witness :
  (get_system_prompt demo_manager "startup" None EmptyString
     (Some ["closing"; "closing"]) None quiet).1
  = inr (Str.join separator ["Ask for a follow-up."; "Ask for a follow-up."]).
Proof.
  apply (repeated_key_repeats_block demo_manager "startup" "closing"
           "Ask for a follow-up." 1); reflexivity.
Defined.

(** The stage [active]. *)
Lemma compact_is_mid_conversation_reduced_witness :
  (get_system_prompt demo_manager "active" None EmptyString None
     (Some ["tone_style"; "tool_usage"]) quiet).1
  = (get_compact_prompt demo_manager None quiet).1.
Proof. apply compact_is_mid_conversation_reduced. by right. Defined.

(** The stage [mid_conversation] on [demo_manager], with a guardrails text. *)
Lemma mid_conversation_extends_compact_witness :
  ∃ compact,
    (get_compact_prompt demo_manager None quiet).1 = inr compact
    ∧ (get_system_prompt demo_manager "mid_conversation" None "Stay on topic."
         None None quiet).1
      = inr (compact +:+ separator
             +:+ Str.join separator
                   ["Warm and short."; "Call the tools."; "Stay on topic."]).
Proof.
  destruct (mid_conversation_extends_compact demo_manager None
              "mid_conversation" None "Stay on topic." quiet (or_introl eq_refl))
    as (compact & Hc & _ & _ & Hext).
  exists compact. split; [exact Hc|].
  apply Hext; discriminate.
Defined.

(** A dict with an entry the template does not read. *)
Lemma datetime_block_reads_fields_only_witness :
  _format_datetime_context (<["note" := "x"]> {[ "timezone" := "IST" ]})
  = _format_datetime_context {[ "timezone" := "IST" ]}.
Proof.
  apply datetime_block_reads_fields_only.
  intros field Hin. apply lookup_insert_ne.
  intros <-. unfold datetime_fields in Hin.
  repeat (apply elem_of_cons in Hin as [Heq|Hin]; [discriminate Heq|]).
  by apply elem_of_nil in Hin.
Defined.

(** ** What a push leaves behind *)

Section Pushed.
Context {C : Type} (location : string).
Implicit Types (w : world C) (self : PromptManager).

(** X16: the field wins over the operation.  When the client has the
    field, the outcome is that of the assignment alone: a service with the
    same attributes and other operations gives the same result, client and
    records, so the update operation is not called. *)
Theorem field_takes_priority (S S' : LLMService C) self stage datetime_info
    guardrails_context w :
  (∀ c name, @hasattr C S c name = @hasattr C S' c name) →
  (∀ c name v, @setattr C S c name v = @setattr C S' c name v) →
  @hasattr C S (w_client w) "system_instruction" = inr true →
  @update_system_instruction C S location self stage datetime_info
    guardrails_context w
  = @update_system_instruction C S' location self stage datetime_info
      guardrails_context w.
Proof.
  intros Hhas Hset Hfield.
  unfold update_system_instruction, try_except.
  rewrite !(bind_ret_run _ _ _ _ _
              (get_system_prompt_run self stage datetime_info
                 guardrails_context None None w)).
  unfold bind, py_hasattr, py_setattr, logger, ret.
  cbn beta iota delta [w_client w_log].
  by rewrite <- Hhas, Hfield, <- Hset.
Qed.



End Pushed.

(** A client with the field and the operation: the operation is not used. *)
Lemma field_takes_priority_witness :
  let both :=
    Mock {[ "system_instruction" := "old" ]}
         {[ "update_system_instruction" := None ]} [] in
  @update_system_instruction _ mock_service demo_location demo_manager
    "closing" None EmptyString (World both [])
  = @update_system_instruction _ (without_operations mock_service)
      demo_location demo_manager "closing" None EmptyString (World both []).
Proof.
  intros both. apply field_takes_priority; [done|done|reflexivity].
Defined.
